(** * Shallow embedding of backend-gpt/src/index.ts

    The Hono worker gates [GET /protected] behind a signed session cookie,
    a free quota of four requests per user and a Stripe pay-per-day
    fallback.  This file embeds the handlers of index.ts:

    - [auth_middleware]     : the [app.use] middleware (lines 118-137);
    - [protected_phase1/2]  : [app.get('/protected')] (lines 139-188);
    - [webhook_phase1/2]    : [app.post('/webhook')] (lines 79-116);
    - [oauth_callback]      : [app.get('/oauth/callback')] (lines 26-77);

    over a ledger of [User] rows (the Prisma [User] model), and composes
    them the way Hono's [compose] does: an exception thrown by a route
    handler is turned into the default [onError] response (500).

    Time is a JavaScript time value (milliseconds since the epoch, as Z);
    the Workers runtime keeps its clock in UTC. *)

From Stdlib Require Import ZArith Lia.
From stdpp Require Import base gmap strings list.

Open Scope Z_scope.

(** ** Data model *)

(** The Prisma [User] row.  [requestCount] is an [INTEGER] column
    (see the migration [CreateTable "User"]), so it is a 32-bit signed
    value in the database. *)
Record User := mkUser {
  id : string;
  email : string;
  createdAt : Z;
  requestCount : Z;
  lastLogin : Z;
  paidUntil : option Z
}.

(** Largest value of a Postgres [INTEGER] column. *)
Definition INT4_MAX : Z := 2147483647.

(** The ledger: the [User] table, keyed by primary key [id]. *)
Abbreviation Ledger := (gmap string User).

(** JSON values as they come out of a decoded JWT payload. *)
Inductive JVal :=
| JStr (s : string)
| JNum (n : Z)
| JBool (b : bool)
| JNull.

Abbreviation Payload := (list (string * JVal)).

(** [obj.key] on a parsed JSON object: [JSON.parse] keeps the last of
    duplicated keys; an absent key reads as [undefined] ([None]). *)
Definition json_get (k : string) (p : Payload) : option JVal :=
  foldl (fun acc kv => if String.eqb kv.1 k then Some kv.2 else acc) None p.

(** What [c.get('userId')] returns: whatever the middleware stored,
    [None] standing for [undefined]. *)
Abbreviation CtxVal := (option JVal).

(** Failures that the embedded code can raise (JavaScript exceptions). *)
Inductive Err :=
| PrismaValidationError     (* malformed query arguments *)
| PrismaRecordNotFound      (* P2025: update of a missing row *)
| PrismaIntOutOfRange       (* Postgres 22003 on the INTEGER column *)
| PrismaUniqueViolation     (* P2002 *)
| StripeSignatureVerificationError
| StripeApiError
| JwtError
| UpstreamAuthError.

(** Code that may throw. *)
Inductive Result (A : Type) :=
| Ok (a : A)
| Throw (e : Err).
Arguments Ok {A} a.
Arguments Throw {A} e.

#[global] Instance result_ret : MRet Result := fun A a => Ok a.
#[global] Instance result_bind : MBind Result :=
  fun A B f m => match m with Ok a => f a | Throw e => Throw e end.

(** HTTP responses of the worker. *)
Inductive Response :=
| RAuthenticated                       (* 200 {message:'You are authenticated'} *)
| RPaymentRequired (url : option string) (* 200 {error:'Payment required', stripeSessionUrl} *)
| RUserNotFound                        (* 404 {error:'User not found'} *)
| RNotAuthenticated                    (* 401 {error:'User not authenticated', signInUrl} *)
| RInvalidToken                        (* 401 {error:'Invalid token', signInUrl} *)
| RWebhookSignatureFailed              (* 400 {error:'Webhook signature verification failed.'} *)
| RReceived                            (* 200 {received:true} *)
| ROAuthFailed                         (* 500 {error:'OAuth callback failed', details} *)
| RRedirectToGpt                       (* 302 to the GPT landing page *)
| RInternalServerError.                (* Hono's default onError: 500 *)

Definition status (r : Response) : Z :=
  match r with
  | RAuthenticated | RPaymentRequired _ | RReceived => 200
  | RUserNotFound => 404
  | RNotAuthenticated | RInvalidToken => 401
  | RWebhookSignatureFailed => 400
  | RRedirectToGpt => 302
  | ROAuthFailed | RInternalServerError => 500
  end.

(** ** Access decision (index.ts line 158) *)

Inductive Decision := ALLOW | REQUIRE_PAYMENT.

Definition FREE_QUOTA : Z := 4.

(** [user.requestCount < 4 || user.paidUntil && user.paidUntil > now]:
    Dates compare by their time values. *)
Definition decide_access (user : User) (now : Z) : Decision :=
  if (requestCount user <? FREE_QUOTA)
     || match paidUntil user with Some p => now <? p | None => false end
  then ALLOW else REQUIRE_PAYMENT.

Definition paid_active (user : User) (now : Z) : Prop :=
  exists p, paidUntil user = Some p /\ now < p.

(** ** Boundary: cryptography, encodings and external services

    The worker relies on library code that is not part of the repository:
    HMAC-SHA256 (Web Crypto), base64url and JSON encodings, Stripe's
    header and event parsing, the Stripe checkout API and Google's OAuth
    endpoints.  They are the fields of this class; the handlers below are
    written against it. *)

(** A session JWT, represented by its decoded parts. *)
Record Jwt := mkJwt { jwt_alg : string; jwt_payload : Payload; jwt_sig : string }.

(** A completed-checkout (or any other) Stripe event, as far as the
    handler reads it: [event.type] and
    [event.data.object.client_reference_id] ([string | null]). *)
Record Event := mkEvent { ev_type : string; ev_client_reference_id : option string }.

Class Boundary := {
  (** HMAC-SHA256 keyed by the first argument, encoded as the caller needs. *)
  hmac_sha256 : string -> string -> string;
  (** [base64url(header) + '.' + base64url(JSON.stringify(payload))]. *)
  jwt_signing_input : string -> Payload -> string;
  (** The compact serialisation of a JWT: the cookie's value. *)
  jwt_compact : Jwt -> string;
  (** Stripe's [parseHeader]: timestamp and the [v1] signatures. *)
  stripe_parse_header : string -> option (Z * list string);
  (** [`${timestamp}.${payload}`], the string Stripe signs. *)
  stripe_signed_payload : Z -> string -> string;
  (** [JSON.parse] of the webhook body into an event. *)
  stripe_parse_event : string -> option Event;
  (** [stripe.checkout.sessions.create({..., client_reference_id})]:
      the session's [url] ([string | null]), or a thrown API error. *)
  stripe_create_checkout_session : CtxVal -> Result (option string);
  (** The two axios calls of the OAuth callback: code to e-mail. *)
  google_identify : string -> Result string
}.

(** The worker's bindings that the embedded code reads. *)
Record Env := mkEnv { JWT_SECRET : string; STRIPE_WEBHOOK_SECRET : string }.

Section Worker.
Context `{Boundary}.

(** *** Session credentials (hono/jwt, hono/cookie) *)

(** [sign({ ... }, secret)]: HS256, no claim added. *)
Definition jwt_sign (secret : string) (p : Payload) : Jwt :=
  mkJwt "HS256" p (hmac_sha256 secret (jwt_signing_input "HS256" p)).

Definition num_claim (k : string) (p : Payload) : option Z :=
  match json_get k p with Some (JNum n) => Some n | _ => None end.

(** [verify(token, secret)]: header check, then [nbf], [exp], [iat]
    against [Math.floor(Date.now() / 1000)] (each only when truthy), then
    the signature; returns the payload unchanged. *)
Definition jwt_verify (secret : string) (now : Z) (t : Jwt) : Result Payload :=
  let p := jwt_payload t in
  let secs := now / 1000 in
  if negb (String.eqb (jwt_alg t) "HS256") then Throw JwtError
  else if (match num_claim "nbf" p with Some n => negb (n =? 0) && (secs <? n) | None => false end)
  then Throw JwtError
  else if (match num_claim "exp" p with Some n => negb (n =? 0) && (n <=? secs) | None => false end)
  then Throw JwtError
  else if (match num_claim "iat" p with Some n => negb (n =? 0) && (secs <? n) | None => false end)
  then Throw JwtError
  else if String.eqb (jwt_sig t) (hmac_sha256 secret (jwt_signing_input (jwt_alg t) p))
  then Ok p
  else Throw JwtError.

(** A signed cookie [token=<value>.<signature>]. *)
Record SignedCookie := mkCookie { ck_token : Jwt; ck_sig : string }.

Definition sign_cookie (secret : string) (t : Jwt) : SignedCookie :=
  mkCookie t (hmac_sha256 secret (jwt_compact t)).

(** [getSignedCookie(c, secret, 'token')]: [undefined] when absent,
    [false] when the cookie signature does not verify; both are [None]. *)
Definition getSignedCookie (secret : string) (ck : option SignedCookie) : option Jwt :=
  match ck with
  | None => None
  | Some c =>
      if String.eqb (ck_sig c) (hmac_sha256 secret (jwt_compact (ck_token c)))
      then Some (ck_token c) else None
  end.

(** Outcome of the middleware: answer at once, or call [next()] with
    [c.set('userId', ...)] done. *)
Inductive MwOutcome :=
| MwRespond (r : Response)
| MwNext (userId : CtxVal).

(** The [app.use] middleware.  [payload.userId as string] is a type
    assertion only: the field is stored as it is.  [await next()] sits in
    the [try], but Hono's [compose] already turns a throwing route handler
    into the [onError] response, so [next()] itself never rejects and the
    [catch] only sees [verify]'s errors. *)
Definition auth_middleware (env : Env) (now : Z) (ck : option SignedCookie) : MwOutcome :=
  match getSignedCookie (JWT_SECRET env) ck with
  | None => MwRespond RNotAuthenticated
  | Some token =>
      match jwt_verify (JWT_SECRET env) now token with
      | Throw _ => MwRespond RInvalidToken
      | Ok payload => MwNext (json_get "userId" payload)
      end
  end.

(** *** Stripe webhook verification (stripe-node) *)

(** Stripe's default tolerance, in seconds. *)
Definition STRIPE_TOLERANCE : Z := 300.

(** [Stripe.webhooks.constructEventAsync(rawBody, sig, secret)]: the
    checks of [parseEventDetails] and [validateComputedSignature] in their
    order, then [JSON.parse]; every failure is a thrown error. *)
Definition constructEvent (payload : string) (header : option string)
    (secret : string) (now : Z) : Result Event :=
  if String.eqb payload "" then Throw StripeSignatureVerificationError
  else match header with
  | None => Throw StripeSignatureVerificationError
  | Some h =>
      if String.eqb h "" then Throw StripeSignatureVerificationError
      else match stripe_parse_header h with
      | None => Throw StripeSignatureVerificationError
      | Some (timestamp, signatures) =>
          if bool_decide (signatures = []) then Throw StripeSignatureVerificationError
          else let expected := hmac_sha256 secret (stripe_signed_payload timestamp payload) in
          if negb (existsb (String.eqb expected) signatures)
          then Throw StripeSignatureVerificationError
          else if STRIPE_TOLERANCE <? now / 1000 - timestamp
          then Throw StripeSignatureVerificationError
          else match stripe_parse_event payload with
               | Some ev => Ok ev
               | None => Throw StripeSignatureVerificationError
               end
      end
  end.

(** *** Prisma queries on the ledger *)

(** [prisma.user.findUnique({ where: { id: userId } })]: an [undefined]
    or non-string id fails Prisma's argument validation. *)
Definition findUnique_id (l : Ledger) (userId : CtxVal) : Result (option User) :=
  match userId with
  | Some (JStr s) => Ok (l !! s)
  | _ => Throw PrismaValidationError
  end.

Definition record_allowed (u : User) (now : Z) : User :=
  mkUser (id u) (email u) (createdAt u) (requestCount u + 1) now (paidUntil u).

(** [prisma.user.update({ where: { id: userId },
      data: { requestCount: { increment: 1 }, lastLogin: now } })]:
    an atomic increment; a missing row is P2025, and the INTEGER column
    rejects a value above [INT4_MAX]. *)
Definition increment_request (l : Ledger) (userId : CtxVal) (now : Z) : Result Ledger :=
  match userId with
  | Some (JStr s) =>
      match l !! s with
      | None => Throw PrismaRecordNotFound
      | Some u =>
          if INT4_MAX <? requestCount u + 1 then Throw PrismaIntOutOfRange
          else Ok (<[s := record_allowed u now]> l)
      end
  | _ => Throw PrismaValidationError
  end.

(** The migration declares [lastLogin TIMESTAMP(3) NOT NULL] with no
    default, yet the callback creates rows from [{ email }] alone: the
    column is Prisma's [@updatedAt], which every [update] that does not
    set it explicitly rewrites to the time of the write. *)
Definition set_paidUntil (u : User) (v : Z) (now : Z) : User :=
  mkUser (id u) (email u) (createdAt u) (requestCount u) now (Some v).

(** [prisma.user.update({ where: { id: userId }, data: { paidUntil: endOfDay } })]
    with [userId = session.client_reference_id!] ([null] is not a valid id),
    written at [now]. *)
Definition update_paidUntil (l : Ledger) (userId : option string) (v : Z) (now : Z)
    : Result Ledger :=
  match userId with
  | None => Throw PrismaValidationError
  | Some s =>
      match l !! s with
      | None => Throw PrismaRecordNotFound
      | Some u => Ok (<[s := set_paidUntil u v now]> l)
      end
  end.

(** *** Date arithmetic *)

Definition msPerDay : Z := 86400000.

(** [const endOfDay = new Date(); endOfDay.setDate(endOfDay.getDate() + 1)]:
    [setDate] rebuilds the time value from [MakeDay(year, month, date + 1)],
    which is [Day(t) + 1], and [TimeWithinDay(t)] (UTC clock). *)
Definition next_day_same_time (t : Z) : Z :=
  (t / msPerDay + 1) * msPerDay + t mod msPerDay.

(** Midnight opening the next calendar day. *)
Definition start_of_next_day (t : Z) : Z := (t / msPerDay + 1) * msPerDay.

(** *** POST /webhook *)

(** The handler up to its one [await] on the ledger: either it answers,
    or it must run the [paidUntil] update. *)
Inductive WebhookStep :=
| WRespond (r : Response)
| WUpdatePaid (userId : option string) (endOfDay : Z).

Definition webhook_phase1 (env : Env) (now : Z) (rawBody : string) (sig : option string)
    : WebhookStep :=
  match constructEvent rawBody sig (STRIPE_WEBHOOK_SECRET env) now with
  | Throw _ => WRespond RWebhookSignatureFailed
  | Ok event =>
      if String.eqb (ev_type event) "checkout.session.completed"
      then WUpdatePaid (ev_client_reference_id event) (next_day_same_time now)
      else WRespond RReceived
  end.

Definition webhook_phase2 (l : Ledger) (userId : option string) (endOfDay : Z) (now : Z)
    : Result Ledger :=
  update_paidUntil l userId endOfDay now.

Definition webhook (env : Env) (now : Z) (rawBody : string) (sig : option string) (l : Ledger)
    : Result (Response * Ledger) :=
  match webhook_phase1 env now rawBody sig with
  | WRespond r => Ok (r, l)
  | WUpdatePaid userId endOfDay =>
      l' ← webhook_phase2 l userId endOfDay now; mret (RReceived, l')
  end.

(** *** GET /protected *)

Inductive ProtectedStep :=
| PRespond (r : Response)
| PRecordAllowed (userId : CtxVal) (now : Z).

(** Up to the decision: read the row, decide, and on REQUIRE_PAYMENT
    create the checkout session (no ledger access). *)
Definition protected_phase1 (now : Z) (userId : CtxVal) (l : Ledger) : Result ProtectedStep :=
  user ← findUnique_id l userId;
  match user with
  | None => mret (PRespond RUserNotFound)
  | Some u =>
      match decide_access u now with
      | ALLOW => mret (PRecordAllowed userId now)
      | REQUIRE_PAYMENT =>
          url ← stripe_create_checkout_session userId;
          mret (PRespond (RPaymentRequired url))
      end
  end.

Definition protected_phase2 (l : Ledger) (userId : CtxVal) (now : Z) : Result Ledger :=
  increment_request l userId now.

Definition protected (now : Z) (userId : CtxVal) (l : Ledger) : Result (Response * Ledger) :=
  st ← protected_phase1 now userId l;
  match st with
  | PRespond r => mret (r, l)
  | PRecordAllowed uid t => l' ← protected_phase2 l uid t; mret (RAuthenticated, l')
  end.

(** *** Hono dispatch *)

(** A route handler's exception becomes [onError]'s 500; the failed
    query changed nothing. *)
Definition dispatch (r : Result (Response * Ledger)) (l : Ledger) : Response * Ledger :=
  match r with
  | Ok rl => rl
  | Throw _ => (RInternalServerError, l)
  end.

(** [POST /webhook]: its handler is registered before [app.use] and never
    calls [next()], so the middleware does not run. *)
Definition serve_webhook (env : Env) (now : Z) (rawBody : string) (sig : option string)
    (l : Ledger) : Response * Ledger :=
  dispatch (webhook env now rawBody sig l) l.

(** [GET /protected]: the middleware, then the handler. *)
Definition serve_protected (env : Env) (now : Z) (ck : option SignedCookie) (l : Ledger)
    : Response * Ledger :=
  match auth_middleware env now ck with
  | MwRespond r => (r, l)
  | MwNext userId => dispatch (protected now userId l) l
  end.

(** *** GET /oauth/callback *)

(** [prisma.user.findUnique({ where: { email } })]: [email] is unique. *)
Definition find_by_email (l : Ledger) (e : string) : option User :=
  map_fold (fun _ u acc => if String.eqb (email u) e then Some u else acc) None l.

(** Modelled from the spec: the Prisma schema (not under src/) fills
    the columns [prisma.user.create({ data: { email } })] leaves out:
    a fresh generated [id], [createdAt] now, [requestCount = 0] (the
    migration's default), [lastLogin] now, and no [paidUntil]. *)
Definition new_user (freshId e : string) (now : Z) : User :=
  mkUser freshId e now 0 now None.

(** [prisma.user.create]: the unique [id] and [email] indexes reject a
    duplicate (P2002). *)
Definition create_user (l : Ledger) (freshId e : string) (now : Z) : Result (User * Ledger) :=
  if bool_decide (is_Some (l !! freshId)) then Throw PrismaUniqueViolation
  else match find_by_email l e with
  | Some _ => Throw PrismaUniqueViolation
  | None => let u := new_user freshId e now in Ok (u, <[freshId := u]> l)
  end.

(** The callback: identify, find or create the row, then sign the
    session and redirect; the [try] turns any failure into 500 JSON.
    [freshId] is the id the database would generate. *)
Definition oauth_callback (env : Env) (now : Z) (code freshId : string) (l : Ledger)
    : Response * Ledger * option SignedCookie :=
  let r :=
    e ← google_identify code;
    match find_by_email l e with
    | Some u => mret (u, l)
    | None => create_user l freshId e now
    end in
  match r with
  | Ok (u, l') =>
      let token := jwt_sign (JWT_SECRET env) [("userId", JStr (id u))] in
      (RRedirectToGpt, l', Some (sign_cookie (JWT_SECRET env) token))
  | Throw _ => (ROAuthFailed, l, None)
  end.

(** ** The running worker *)

(** A request suspended on its ledger write: a webhook that has computed
    [endOfDay], or a [/protected] request that has decided ALLOW. *)
Inductive Inflight :=
| IWebhook (userId : option string) (endOfDay : Z)
| IProtected (userId : CtxVal) (now : Z).

Record World := mkWorld { ledger : Ledger; clock : Z; inflight : list Inflight }.

Definition with_ledger (w : World) (l : Ledger) : World := mkWorld l (clock w) (inflight w).
Definition with_clock (w : World) (t : Z) : World := mkWorld (ledger w) t (inflight w).

(** The ledger after a write that may have thrown. *)
Definition ledger_after (r : Result Ledger) (l : Ledger) : Ledger :=
  match r with Ok l' => l' | Throw _ => l end.

(** Requests handled one at a time, each as a whole; the clock never
    goes back. *)
Inductive sstep (env : Env) : World -> World -> Prop :=
| ss_tick w t :
    clock w <= t -> sstep env w (with_clock w t)
| ss_oauth w code freshId :
    sstep env w (with_ledger w (oauth_callback env (clock w) code freshId (ledger w)).1.2)
| ss_webhook w rawBody sig :
    sstep env w (with_ledger w (serve_webhook env (clock w) rawBody sig (ledger w)).2)
| ss_protected w ck :
    sstep env w (with_ledger w (serve_protected env (clock w) ck (ledger w)).2).

(** Requests interleaved at their ledger writes (the spec's concurrency
    model: every request runs concurrently, suspending on each await). *)
Inductive cstep (env : Env) : World -> World -> Prop :=
| cs_tick w t :
    clock w <= t -> cstep env w (with_clock w t)
| cs_oauth w code freshId :
    cstep env w (with_ledger w (oauth_callback env (clock w) code freshId (ledger w)).1.2)
| cs_webhook_begin w rawBody sig userId endOfDay :
    webhook_phase1 env (clock w) rawBody sig = WUpdatePaid userId endOfDay ->
    cstep env w (mkWorld (ledger w) (clock w) (inflight w ++ [IWebhook userId endOfDay]))
| cs_webhook_end w i userId endOfDay :
    inflight w !! i = Some (IWebhook userId endOfDay) ->
    cstep env w (mkWorld (ledger_after (webhook_phase2 (ledger w) userId endOfDay (clock w))
                                       (ledger w))
                         (clock w) (delete i (inflight w)))
| cs_protected_begin w ck userId uid t :
    auth_middleware env (clock w) ck = MwNext userId ->
    protected_phase1 (clock w) userId (ledger w) = Ok (PRecordAllowed uid t) ->
    cstep env w (mkWorld (ledger w) (clock w) (inflight w ++ [IProtected uid t]))
| cs_protected_end w i uid t :
    inflight w !! i = Some (IProtected uid t) ->
    cstep env w (mkWorld (ledger_after (protected_phase2 (ledger w) uid t) (ledger w))
                         (clock w) (delete i (inflight w))).

(** Start of the deployment: nothing in flight, and no row has paid yet
    (the initial migration has no [paidUntil] column). *)
Definition initial (w : World) : Prop :=
  inflight w = [] /\ forall uid u, ledger w !! uid = Some u -> paidUntil u = None.

Definition sreachable (env : Env) (w : World) : Prop :=
  exists w0, initial w0 /\ rtc (sstep env) w0 w.

Definition creachable (env : Env) (w : World) : Prop :=
  exists w0, initial w0 /\ rtc (cstep env) w0 w.

(** [paidUntil] did not move backward from [a] to [b]. *)
Definition paid_le (a b : option Z) : Prop :=
  match a, b with
  | None, _ => True
  | Some x, Some y => x <= y
  | Some _, None => False
  end.

(** Every row's [paidUntil], when set, is at most one day past the clock. *)
Definition paid_bounded (w : World) : Prop :=
  forall uid u, ledger w !! uid = Some u -> paid_le (paidUntil u) (Some (clock w + msPerDay)).

End Worker.

(** ** Ledger invariants *)

(** Every row is stored under its own primary key. *)
Definition keyed_by_id (l : Ledger) : Prop :=
  forall k u, l !! k = Some u -> id u = k.

(** No two rows share an e-mail (the unique index on [email]). *)
Definition emails_unique (l : Ledger) : Prop :=
  forall k1 k2 u1 u2, l !! k1 = Some u1 -> l !! k2 = Some u2 -> email u1 = email u2 -> k1 = k2.

(** Every [requestCount] is a non-negative value of the INTEGER column. *)
Definition counts_in_range (l : Ledger) : Prop :=
  forall k u, l !! k = Some u -> 0 <= requestCount u <= INT4_MAX.

(** ** Consecutive requests *)

Section Runs.
Context `{Boundary}.

(** [n] [/protected] requests for one context user, one after the other
    at the same time [now]: the answers in order and the final ledger. *)
Fixpoint protected_n (n : nat) (now : Z) (userId : CtxVal) (l : Ledger)
    : list Response * Ledger :=
  match n with
  | O => ([], l)
  | S n' =>
      let rl := dispatch (protected now userId l) l in
      let rest := protected_n n' now userId rl.2 in
      (rl.1 :: rest.1, rest.2)
  end.

End Runs.

(** ** A concrete boundary for evaluating the handlers on sample inputs

    Not cryptography: a keyed tag that is the key and the message side by
    side.  Every Stripe header carries the timestamp 43200 (12:00 UTC,
    1 January 1970) and is itself the one [v1] signature; a webhook body
    is the completed checkout of the user id it spells. *)

Definition sample_boundary : Boundary := {|
  hmac_sha256 k m := String.append k (String.append "|" m);
  jwt_signing_input alg _ := alg;
  jwt_compact t := String.append (jwt_alg t) (String.append "." (jwt_sig t));
  stripe_parse_header h := Some (43200, [h]);
  stripe_signed_payload _ p := p;
  stripe_parse_event p := Some (mkEvent "checkout.session.completed" (Some p));
  stripe_create_checkout_session _ := Ok (Some "https://checkout.stripe.com/c/pay/cs_test");
  google_identify code := Ok code
|}.

Definition sample_env : Env := mkEnv "jwt-secret" "whsec".

(** A Stripe header that verifies the body [b] under [sample_env]. *)
Definition sample_sig (b : string) : option string :=
  Some (String.append "whsec" (String.append "|" b)).

(** A fresh user, and a deployment holding only that row. *)
Definition alice : User := mkUser "u1" "alice@example.com" 0 0 0 None.

Definition alice_ledger : Ledger := {["u1" := alice]}.

Definition sample_world : World := mkWorld alice_ledger 0 [].

(** A user over the free quota whose payment runs until 24:00 on day 0. *)
Definition bob : User := mkUser "u2" "bob@example.com" 0 10 0 (Some 86400000).

Definition bob_ledger : Ledger := {["u2" := bob]}.

(** A user who has just used up the free quota. *)
Definition carol : User := mkUser "u3" "carol@example.com" 0 4 0 None.

Definition carol_world : World := mkWorld {["u3" := carol]} 0 [].



Section Proofs.
Context `{Boundary}.

(** ** Ledger effects of the handlers *)

Lemma next_day_same_time_eq (t : Z) : next_day_same_time t = t + msPerDay.
Proof.
  unfold next_day_same_time, msPerDay.
  pose proof (Z.div_mod t 86400000 ltac:(lia)). lia.
Qed.

Ltac unfold_result :=
  unfold mbind, result_bind, mret, result_ret in *.

(** The [/protected] handler leaves the ledger alone or records one
    allowed request on an existing row. *)
Lemma protected_ledger (now : Z) (userId : CtxVal) (l : Ledger) :
  (dispatch (protected now userId l) l).2 = l \/
  exists s u, l !! s = Some u /\
    (dispatch (protected now userId l) l).2 = <[s := record_allowed u now]> l.
Proof.
  unfold protected, protected_phase1, protected_phase2, increment_request,
    findUnique_id; unfold_result.
  destruct userId as [[s| | |]|]; simpl; auto.
  destruct (l !! s) as [u|] eqn:Hs; simpl; auto.
  destruct (decide_access u now); simpl.
  - rewrite Hs. destruct (INT4_MAX <? requestCount u + 1); simpl; eauto.
  - destruct stripe_create_checkout_session; simpl; auto.
Qed.

Lemma serve_protected_ledger (env : Env) (now : Z) (ck : option SignedCookie) (l : Ledger) :
  (serve_protected env now ck l).2 = l \/
  exists s u, l !! s = Some u /\
    (serve_protected env now ck l).2 = <[s := record_allowed u now]> l.
Proof.
  unfold serve_protected. destruct (auth_middleware env now ck); simpl; auto.
  apply protected_ledger.
Qed.

Lemma update_paidUntil_ledger (l : Ledger) (userId : option string) (v now : Z) :
  ledger_after (update_paidUntil l userId v now) l = l \/
  exists s u, l !! s = Some u /\
    ledger_after (update_paidUntil l userId v now) l = <[s := set_paidUntil u v now]> l.
Proof.
  unfold update_paidUntil. destruct userId as [s|]; simpl; auto.
  destruct (l !! s) as [u|] eqn:Hs; simpl; eauto.
Qed.

Lemma increment_request_ledger (l : Ledger) (userId : CtxVal) (now : Z) :
  ledger_after (increment_request l userId now) l = l \/
  exists s u, l !! s = Some u /\
    ledger_after (increment_request l userId now) l = <[s := record_allowed u now]> l.
Proof.
  unfold increment_request. destruct userId as [[s| | |]|]; simpl; auto.
  destruct (l !! s) as [u|] eqn:Hs; simpl; auto.
  destruct (INT4_MAX <? requestCount u + 1); simpl; eauto.
Qed.

Lemma serve_webhook_ledger (env : Env) (now : Z) (rawBody : string) (sig : option string)
    (l : Ledger) :
  (serve_webhook env now rawBody sig l).2 = l \/
  exists s u, l !! s = Some u /\
    (serve_webhook env now rawBody sig l).2
      = <[s := set_paidUntil u (next_day_same_time now) now]> l.
Proof.
  unfold serve_webhook, webhook. destruct (webhook_phase1 env now rawBody sig) eqn:Hp;
    simpl; auto.
  assert (Hend : endOfDay = next_day_same_time now).
  { unfold webhook_phase1 in Hp.
    destruct constructEvent; [|discriminate].
    destruct String.eqb; congruence. }
  subst endOfDay. unfold webhook_phase2, update_paidUntil; unfold_result.
  destruct userId as [s|]; simpl; auto.
  destruct (l !! s) as [u|] eqn:Hs; simpl; eauto.
Qed.

Lemma oauth_callback_ledger (env : Env) (now : Z) (code freshId : string) (l : Ledger) :
  (oauth_callback env now code freshId l).1.2 = l \/
  (l !! freshId = None /\
   exists e, (oauth_callback env now code freshId l).1.2 = <[freshId := new_user freshId e now]> l).
Proof.
  unfold oauth_callback; unfold_result.
  destruct (google_identify code) as [e|]; simpl; auto.
  destruct (find_by_email l e) eqn:Hf; simpl; auto.
  unfold create_user. destruct (bool_decide (is_Some (l !! freshId))) eqn:Hb; simpl; auto.
  rewrite Hf; simpl. right. split; [|eauto].
  apply bool_decide_eq_false in Hb. destruct (l !! freshId); [exfalso; eauto|done].
Qed.

(** An ALLOW decision on an existing row runs the increment. *)
Lemma protected_allow (now : Z) (s : string) (u : User) (l : Ledger) :
  l !! s = Some u -> decide_access u now = ALLOW ->
  dispatch (protected now (Some (JStr s)) l) l =
    if INT4_MAX <? requestCount u + 1 then (RInternalServerError, l)
    else (RAuthenticated, <[s := record_allowed u now]> l).
Proof.
  intros Hs Hd.
  unfold protected, protected_phase1, protected_phase2, increment_request,
    findUnique_id; unfold_result; simpl.
  rewrite Hs, Hd; simpl. rewrite Hs.
  destruct (INT4_MAX <? requestCount u + 1); reflexivity.
Qed.

(** A REQUIRE_PAYMENT decision on an existing row leaves the ledger alone
    and does not answer as authenticated. *)
Lemma protected_require_payment (now : Z) (s : string) (u : User) (l : Ledger) :
  l !! s = Some u -> decide_access u now = REQUIRE_PAYMENT ->
  (dispatch (protected now (Some (JStr s)) l) l).2 = l /\
  (dispatch (protected now (Some (JStr s)) l) l).1 <> RAuthenticated.
Proof.
  intros Hs Hd.
  unfold protected, protected_phase1, findUnique_id; unfold_result; simpl.
  rewrite Hs, Hd; simpl.
  destruct stripe_create_checkout_session; simpl; split; congruence.
Qed.

(** Any payload signed with the session secret passes the middleware,
    one without [userId] included. *)
Lemma signed_empty_payload_passes (env : Env) (now : Z) :
  auth_middleware env now
    (Some (sign_cookie (JWT_SECRET env) (jwt_sign (JWT_SECRET env) []))) = MwNext None.
Proof.
  unfold auth_middleware, getSignedCookie, sign_cookie, jwt_verify, jwt_sign; simpl.
  rewrite !String.eqb_refl. reflexivity.
Qed.

(** The two outcomes of [decide_access], by the condition it tests. *)
Lemma decide_access_cases (u : User) (now : Z) :
  (decide_access u now = ALLOW <-> requestCount u < FREE_QUOTA \/ paid_active u now) /\
  (decide_access u now = REQUIRE_PAYMENT <->
     ~ (requestCount u < FREE_QUOTA \/ paid_active u now)).
Proof.
  unfold decide_access, paid_active.
  destruct (Z.ltb_spec (requestCount u) FREE_QUOTA) as [Hq|Hq]; simpl.
  - split; split; intros; try done; [auto | exfalso; tauto].
  - destruct (paidUntil u) as [p|] eqn:Hp.
    + destruct (Z.ltb_spec now p) as [Hn|Hn].
      * split; split; intros; try done; [eauto | exfalso; eauto].
      * split; split; intros Hx; try done.
        -- exfalso. destruct Hx as [Hx|(p' & Hp' & Hx)]; [lia|].
           injection Hp' as <-. lia.
        -- intros [Hx'|(p' & Hp' & Hx')]; [lia|]. injection Hp' as <-. lia.
    + split; split; intros Hx; try done.
      * exfalso. destruct Hx as [Hx|(p' & Hp' & _)]; [lia|discriminate].
      * intros [Hx'|(p' & Hp' & _)]; [lia|discriminate].
Qed.

(** ** Claims *)

(** C1: the access decision is ALLOW exactly when [requestCount < 4] or
    [paidUntil] is present and later than [now]; otherwise it is
    REQUIRE_PAYMENT.  (So a user both under quota and paid is ALLOWed.) *)
Theorem decide_access_iff (u : User) (now : Z) :
  (decide_access u now = ALLOW <-> requestCount u < FREE_QUOTA \/ paid_active u now) /\
  (decide_access u now = REQUIRE_PAYMENT <->
     ~ (requestCount u < FREE_QUOTA \/ paid_active u now)).
Proof. exact (decide_access_cases u now). Qed.

(** C2 (as the code has it): on an existing row, an ALLOW decision
    raises [requestCount] by exactly 1 and sets [lastLogin] to [now],
    every other field unchanged, as long as the result fits the INTEGER
    column; at [requestCount = INT4_MAX] the database rejects the
    increment, the request fails with Hono's 500 and no row changes.  A
    REQUIRE_PAYMENT decision changes no row and is not answered as
    authenticated. *)
Theorem protected_request_effect (now : Z) (s : string) (u : User) (l : Ledger) :
  l !! s = Some u ->
  (decide_access u now = ALLOW -> requestCount u < INT4_MAX ->
     dispatch (protected now (Some (JStr s)) l) l
     = (RAuthenticated,
        <[s := mkUser (id u) (email u) (createdAt u) (requestCount u + 1) now (paidUntil u)]> l)) /\
  (decide_access u now = ALLOW -> INT4_MAX <= requestCount u ->
     dispatch (protected now (Some (JStr s)) l) l = (RInternalServerError, l)) /\
  (decide_access u now = REQUIRE_PAYMENT ->
     (dispatch (protected now (Some (JStr s)) l) l).2 = l /\
     (dispatch (protected now (Some (JStr s)) l) l).1 <> RAuthenticated).
Proof.
  intros Hs. split; [|split].
  - intros Hd Hlt. rewrite (protected_allow now s u l Hs Hd).
    destruct (Z.ltb_spec INT4_MAX (requestCount u + 1)); [lia|reflexivity].
  - intros Hd Hge. rewrite (protected_allow now s u l Hs Hd).
    destruct (Z.ltb_spec INT4_MAX (requestCount u + 1)); [reflexivity|lia].
  - intros Hd. exact (protected_require_payment now s u l Hs Hd).
Qed.

(** C9 (as the code has it): every request decided ALLOW is counted:
    one allowed under the free quota, and also one allowed only because
    [paidUntil] is active (the row at or over the quota), raises
    [requestCount] by exactly 1 as long as it fits the INTEGER column; so
    [requestCount] counts allowed requests, not only free-tier ones. *)
Theorem paid_request_counted (now : Z) (s : string) (u : User) (l : Ledger) :
  l !! s = Some u -> requestCount u < FREE_QUOTA \/ paid_active u now ->
  requestCount u < INT4_MAX ->
  exists u', dispatch (protected now (Some (JStr s)) l) l = (RAuthenticated, <[s := u']> l) /\
             requestCount u' = requestCount u + 1.
Proof.
  intros Hs Hc Hlt.
  assert (Hd : decide_access u now = ALLOW) by exact (proj2 (proj1 (decide_access_cases u now)) Hc).
  rewrite (protected_allow now s u l Hs Hd).
  destruct (Z.ltb_spec INT4_MAX (requestCount u + 1)); [lia|].
  exists (record_allowed u now). split; reflexivity.
Qed.

(** C7: when the Stripe signature check (or any other check of
    [constructEventAsync]) fails, the webhook answers 400 whatever the
    ledger holds and leaves it unchanged; the part of the handler before
    its ledger write does not even take the ledger as input. *)
Theorem webhook_rejects_unverified (env : Env) (now : Z) (rawBody : string)
    (sig : option string) (e : Err) :
  constructEvent rawBody sig (STRIPE_WEBHOOK_SECRET env) now = Throw e ->
  webhook_phase1 env now rawBody sig = WRespond RWebhookSignatureFailed /\
  forall l, serve_webhook env now rawBody sig l = (RWebhookSignatureFailed, l).
Proof.
  intros He.
  assert (Hp : webhook_phase1 env now rawBody sig = WRespond RWebhookSignatureFailed).
  { unfold webhook_phase1. by rewrite He. }
  split; [exact Hp|]. intros l. unfold serve_webhook, webhook. by rewrite Hp.
Qed.

(** C10: a webhook with no [stripe-signature] header is answered 400 and
    changes nothing: neither an acknowledgement nor an unhandled error. *)
Theorem webhook_missing_signature (env : Env) (now : Z) (rawBody : string) (l : Ledger) :
  serve_webhook env now rawBody None l = (RWebhookSignatureFailed, l).
Proof.
  unfold serve_webhook, webhook, webhook_phase1, constructEvent.
  by destruct (String.eqb rawBody "").
Qed.

(** C4 (as the code has it): once the event verifies, the answer is
    200 [{received: true}] for an event other than a completed checkout,
    and for a completed checkout whose [client_reference_id] names an
    existing row (after setting its [paidUntil], and [lastLogin] to [now]
    by [@updatedAt]); a completed checkout
    whose reference is [null] or names no row makes the Prisma update
    throw, and the worker answers Hono's default 500 with no change. *)
Theorem webhook_verified_response (env : Env) (now : Z) (rawBody : string)
    (sig : option string) (ev : Event) (l : Ledger) :
  constructEvent rawBody sig (STRIPE_WEBHOOK_SECRET env) now = Ok ev ->
  serve_webhook env now rawBody sig l =
    if String.eqb (ev_type ev) "checkout.session.completed" then
      match ev_client_reference_id ev with
      | Some s =>
          match l !! s with
          | Some u => (RReceived, <[s := set_paidUntil u (now + msPerDay) now]> l)
          | None => (RInternalServerError, l)
          end
      | None => (RInternalServerError, l)
      end
    else (RReceived, l).
Proof.
  intros He. unfold serve_webhook, webhook, webhook_phase1. rewrite He.
  destruct (String.eqb (ev_type ev) "checkout.session.completed"); [|reflexivity].
  unfold webhook_phase2, update_paidUntil; unfold_result.
  rewrite next_day_same_time_eq.
  destruct (ev_client_reference_id ev) as [s|]; [|reflexivity].
  by destruct (l !! s).
Qed.

(** C5 (as the code has it): a verified completed checkout processed at
    [now] sets the row's [paidUntil] to [now + 1 day] (the same time of day
    on the next day, 86 400 000 ms later) and, by [@updatedAt], its
    [lastLogin] to [now], every other field unchanged; this is the start of the next calendar day only when [now] is exactly
    midnight. *)
Theorem webhook_sets_next_day_same_time (env : Env) (now : Z) (rawBody : string)
    (sig : option string) (ev : Event) (l : Ledger) (s : string) (u : User) :
  constructEvent rawBody sig (STRIPE_WEBHOOK_SECRET env) now = Ok ev ->
  ev_type ev = "checkout.session.completed" ->
  ev_client_reference_id ev = Some s -> l !! s = Some u ->
  (serve_webhook env now rawBody sig l).2 !! s
    = Some (mkUser (id u) (email u) (createdAt u) (requestCount u) now
                   (Some (now + msPerDay))) /\
  (now + msPerDay = start_of_next_day now <-> now mod msPerDay = 0).
Proof.
  intros He Ht Hr Hs. split.
  - unfold serve_webhook, webhook, webhook_phase1. rewrite He, Ht. simpl.
    unfold webhook_phase2, update_paidUntil; unfold_result. rewrite Hr, Hs; simpl.
    rewrite next_day_same_time_eq. apply lookup_insert_eq.
  - unfold start_of_next_day, msPerDay.
    pose proof (Z.div_mod now 86400000 ltac:(lia)). lia.
Qed.

(** C6 (as the code has it): the middleware answers 401
    'User not authenticated' when the signed cookie is missing or its
    cookie signature fails, and 401 'Invalid token' when the cookie
    verifies but hono's [verify] rejects the JWT (a JWT signature that
    does not verify is one such case); either way the handler is not run.
    When [verify] succeeds, [payload.userId] is passed on as it is, with no
    check that it is present or a string, and the handler runs. *)
Theorem auth_middleware_outcomes (env : Env) (now : Z) (ck : option SignedCookie) :
  (getSignedCookie (JWT_SECRET env) ck = None ->
     auth_middleware env now ck = MwRespond RNotAuthenticated) /\
  (forall t e, getSignedCookie (JWT_SECRET env) ck = Some t ->
     jwt_verify (JWT_SECRET env) now t = Throw e ->
     auth_middleware env now ck = MwRespond RInvalidToken) /\
  (forall t p, getSignedCookie (JWT_SECRET env) ck = Some t ->
     jwt_verify (JWT_SECRET env) now t = Ok p ->
     auth_middleware env now ck = MwNext (json_get "userId" p)) /\
  (forall t, jwt_sig t <> hmac_sha256 (JWT_SECRET env) (jwt_signing_input (jwt_alg t) (jwt_payload t)) ->
     exists e, jwt_verify (JWT_SECRET env) now t = Throw e).
Proof.
  unfold auth_middleware. split; [|split; [|split]].
  - intros Hc. by rewrite Hc.
  - intros t e Hc Hv. by rewrite Hc, Hv.
  - intros t p Hc Hv. by rewrite Hc, Hv.
  - intros t Hne. unfold jwt_verify. cbv zeta.
    destruct (String.eqb (jwt_sig t)
                (hmac_sha256 (JWT_SECRET env) (jwt_signing_input (jwt_alg t) (jwt_payload t)))) eqn:E.
    + exfalso. apply Hne. by apply String.eqb_eq.
    + repeat match goal with |- context [if ?b then _ else _] => destruct b end; eauto.
Qed.

(** Rows are never removed and [requestCount] never goes down, at any
    interleaved step. *)
Lemma cstep_request_count (env : Env) (w w' : World) :
  cstep env w w' -> forall uid u, ledger w !! uid = Some u ->
  exists u', ledger w' !! uid = Some u' /\ requestCount u <= requestCount u'.
Proof.
  intros Hst uid u Hu.
  destruct Hst; simpl in *; unfold webhook_phase2, protected_phase2;
    try (exists u; split; [done|lia]).
  - destruct (oauth_callback_ledger env (clock w) code freshId (ledger w)) as [E|(Hf & e & E)];
      rewrite E; [exists u; split; [done|lia]|].
    exists u. rewrite lookup_insert_ne; [split; [done|lia]|congruence].
  - destruct (update_paidUntil_ledger (ledger w) userId endOfDay (clock w))
      as [E|(s & u0 & Hs & E)];
      rewrite E; [exists u; split; [done|lia]|].
    rewrite lookup_insert. destruct (decide (s = uid)) as [->|Hne].
    + rewrite Hs in Hu. injection Hu as <-. eexists; split; [done|simpl; lia].
    + exists u. split; [done|lia].
  - destruct (increment_request_ledger (ledger w) uid0 t) as [E|(s & u0 & Hs & E)];
      rewrite E; [exists u; split; [done|lia]|].
    rewrite lookup_insert. destruct (decide (s = uid)) as [->|Hne].
    + rewrite Hs in Hu. injection Hu as <-. eexists; split; [done|simpl; lia].
    + exists u. split; [done|lia].
Qed.

(** C8: once a row has reached the free quota it stays at or over it at
    every later point of any interleaving, and while its [paidUntil] is
    not active every [/protected] request for it is decided
    REQUIRE_PAYMENT: it is not answered as authenticated, it changes no
    row, and it never reaches the increment. *)
Theorem quota_exhausted_forever (env : Env) (w w' : World) (uid : string) (u : User) :
  rtc (cstep env) w w' -> ledger w !! uid = Some u -> FREE_QUOTA <= requestCount u ->
  exists u', ledger w' !! uid = Some u' /\ FREE_QUOTA <= requestCount u' /\
    (~ paid_active u' (clock w') ->
       decide_access u' (clock w') = REQUIRE_PAYMENT /\
       (forall ck, auth_middleware env (clock w') ck = MwNext (Some (JStr uid)) ->
          (serve_protected env (clock w') ck (ledger w')).2 = ledger w' /\
          (serve_protected env (clock w') ck (ledger w')).1 <> RAuthenticated) /\
       (forall x t, protected_phase1 (clock w') (Some (JStr uid)) (ledger w')
                      <> Ok (PRecordAllowed x t))).
Proof.
  intros Hr. revert u. induction Hr as [w|w1 w2 w3 H12 H23 IH]; intros u Hu Hq.
  - exists u. split; [done|]. split; [done|]. intros Hp.
    assert (Hd : decide_access u (clock w) = REQUIRE_PAYMENT).
    { apply (proj2 (decide_access_cases u (clock w))). intros [Hx|Hx]; [lia|tauto]. }
    split; [done|]. split.
    + intros ck Hm. unfold serve_protected. rewrite Hm.
      exact (protected_require_payment (clock w) uid u (ledger w) Hu Hd).
    + intros x t. unfold protected_phase1, findUnique_id; unfold_result; simpl.
      rewrite Hu, Hd. simpl. destruct stripe_create_checkout_session; simpl; congruence.
  - destruct (cstep_request_count env w1 w2 H12 uid u Hu) as (u2 & Hu2 & Hle).
    apply (IH u2 Hu2). lia.
Qed.

(** The sequential steps keep every [paidUntil] within a day of the clock. *)
Lemma sstep_paid_bounded (env : Env) (w w' : World) :
  sstep env w w' -> paid_bounded w -> paid_bounded w'.
Proof.
  unfold paid_bounded. intros Hst Hb uid u Hu. destruct Hst; simpl in *.
  - specialize (Hb uid u Hu). destruct (paidUntil u); simpl in *; [lia|done].
  - destruct (oauth_callback_ledger env (clock w) code freshId (ledger w)) as [E|(Hf & e & E)];
      rewrite E in Hu; [eauto|].
    rewrite lookup_insert in Hu. destruct (decide (freshId = uid)); [|eauto].
    injection Hu as <-. done.
  - destruct (serve_webhook_ledger env (clock w) rawBody sig (ledger w)) as [E|(s & u0 & Hs & E)];
      rewrite E in Hu; [eauto|].
    rewrite lookup_insert in Hu. destruct (decide (s = uid)); [|eauto].
    injection Hu as <-. simpl. rewrite next_day_same_time_eq. lia.
  - destruct (serve_protected_ledger env (clock w) ck (ledger w)) as [E|(s & u0 & Hs & E)];
      rewrite E in Hu; [eauto|].
    rewrite lookup_insert in Hu. destruct (decide (s = uid)) as [->|]; [|eauto].
    injection Hu as <-. exact (Hb uid u0 Hs).
Qed.

Lemma sreachable_paid_bounded (env : Env) (w : World) :
  sreachable env w -> paid_bounded w.
Proof.
  intros (w0 & [_ Hinit] & Hr).
  assert (H0 : paid_bounded w0) by (intros uid u Hu; by rewrite (Hinit uid u Hu)).
  clear Hinit. induction Hr as [w|w1 w2 w3 H12 H23 IH]; [done|].
  apply IH. exact (sstep_paid_bounded env w1 w2 H12 H0).
Qed.

Lemma paid_le_refl (a : option Z) : paid_le a a.
Proof. destruct a; simpl; [lia|done]. Qed.

(** C3 (as the code has it): with requests handled one at a time and a
    clock that does not go back, no step moves a row's [paidUntil]
    backward.  Only the webhook writes it, and it overwrites it
    unconditionally with its own [now + 1 day], which is never earlier
    than what an earlier webhook wrote.  (With two webhook handlers for
    one user interleaved this fails: see the counterexample below.) *)
Theorem paid_until_monotone_sequential (env : Env) (w w' : World) (uid : string) (u : User) :
  sreachable env w -> sstep env w w' -> ledger w !! uid = Some u ->
  exists u', ledger w' !! uid = Some u' /\ paid_le (paidUntil u) (paidUntil u') /\
    (paidUntil u' = paidUntil u \/
     (paidUntil u' = Some (clock w + msPerDay) /\
      exists rawBody sig,
        w' = with_ledger w (serve_webhook env (clock w) rawBody sig (ledger w)).2)).
Proof.
  intros Hr Hst Hu. pose proof (sreachable_paid_bounded env w Hr) as Hb.
  assert (Hkeep : forall l x, l !! uid = Some x ->
    exists u', l !! uid = Some u' /\ paid_le (paidUntil x) (paidUntil u') /\
      (paidUntil u' = paidUntil x \/
       (paidUntil u' = Some (clock w + msPerDay) /\
        exists rawBody sig, with_ledger w l
          = with_ledger w (serve_webhook env (clock w) rawBody sig (ledger w)).2))).
  { intros l x Hx. exists x. split; [done|]. split; [apply paid_le_refl|by left]. }
  destruct Hst; simpl in *.
  - exists u. split; [done|]. split; [apply paid_le_refl|by left].
  - destruct (oauth_callback_ledger env (clock w) code freshId (ledger w)) as [E|(Hf & e & E)];
      rewrite E; [by apply Hkeep|].
    apply Hkeep. rewrite lookup_insert_ne; [done|congruence].
  - destruct (serve_webhook_ledger env (clock w) rawBody sig (ledger w)) as [E|(s & u0 & Hs & E)];
      rewrite E; [by apply Hkeep|].
    destruct (decide (s = uid)) as [->|Hne].
    + rewrite Hs in Hu. injection Hu as <-. eexists; split; [apply lookup_insert_eq|].
      specialize (Hb uid u0 Hs). simpl. rewrite next_day_same_time_eq. split.
      * destruct (paidUntil u0); simpl in *; [lia|done].
      * right. split; [done|]. exists rawBody, sig. by rewrite E, next_day_same_time_eq.
    + apply Hkeep. rewrite lookup_insert_ne; done.
  - destruct (serve_protected_ledger env (clock w) ck (ledger w)) as [E|(s & u0 & Hs & E)];
      rewrite E; [by apply Hkeep|].
    destruct (decide (s = uid)) as [->|Hne].
    + rewrite Hs in Hu. injection Hu as <-. eexists; split; [apply lookup_insert_eq|].
      split; [apply paid_le_refl|by left].
    + apply Hkeep. rewrite lookup_insert_ne; done.
Qed.

End Proofs.

(** ** Further properties of the worker *)

Section Extras.
Context `{Boundary}.

Ltac unfold_monad := unfold mbind, result_bind, mret, result_ret in *.

(** [find_by_email] returns a row with that e-mail, or [None] when no
    row has it. *)
Lemma find_by_email_spec (l : Ledger) (e : string) :
  match find_by_email l e with
  | Some u => exists k, l !! k = Some u /\ email u = e
  | None => forall k u, l !! k = Some u -> email u <> e
  end.
Proof.
  unfold find_by_email.
  apply (map_fold_weak_ind
           (fun r (m : Ledger) => match r with
                      | Some u => exists k, m !! k = Some u /\ email u = e
                      | None => forall k u, m !! k = Some u -> email u <> e
                      end)).
  - intros k u Hk. by rewrite lookup_empty in Hk.
  - intros i x m r Hi IH. cbn beta.
    destruct (String.eqb (email x) e) eqn:E.
    + apply String.eqb_eq in E. exists i. by rewrite lookup_insert_eq.
    + apply String.eqb_neq in E. destruct r as [u|].
      * destruct IH as (k & Hk & He). exists k.
        rewrite lookup_insert_ne; [done|congruence].
      * intros k u Hk. rewrite lookup_insert in Hk.
        destruct (decide (i = k)); [injection Hk as <-; done|eauto].
Qed.

Lemma find_by_email_none (l : Ledger) (e : string) :
  (forall k u, l !! k = Some u -> email u <> e) -> find_by_email l e = None.
Proof.
  intros Hno. pose proof (find_by_email_spec l e) as Hs.
  destruct (find_by_email l e) as [u|]; [|done].
  destruct Hs as (k & Hk & He). exfalso. exact (Hno k u Hk He).
Qed.

(** The session cookie the callback issues passes the middleware. *)
Lemma session_cookie_passes (env : Env) (t : Z) (uid : string) :
  auth_middleware env t
    (Some (sign_cookie (JWT_SECRET env) (jwt_sign (JWT_SECRET env) [("userId", JStr uid)])))
  = MwNext (Some (JStr uid)).
Proof.
  unfold auth_middleware, getSignedCookie, sign_cookie, jwt_verify, jwt_sign; simpl.
  rewrite !String.eqb_refl. reflexivity.
Qed.

(** X1: a returning user (a row already has the e-mail Google reports)
    is signed in as that row: the ledger is unchanged and the cookie
    carries the row's id. *)
Theorem oauth_returning_user (env : Env) (now : Z) (code freshId e k : string) (u : User)
    (l : Ledger) :
  keyed_by_id l -> emails_unique l -> google_identify code = Ok e ->
  l !! k = Some u -> email u = e ->
  oauth_callback env now code freshId l
  = (RRedirectToGpt, l,
     Some (sign_cookie (JWT_SECRET env) (jwt_sign (JWT_SECRET env) [("userId", JStr k)]))).
Proof.
  intros Hkey Huniq Hg Hk He. unfold oauth_callback; unfold_monad. rewrite Hg. cbn.
  pose proof (find_by_email_spec l e) as Hs.
  destruct (find_by_email l e) as [u'|].
  - destruct Hs as (k' & Hk' & He').
    assert (k' = k) as -> by (apply (Huniq k' k u' u); congruence).
    rewrite Hk in Hk'. injection Hk' as <-. cbn. by rewrite (Hkey k u Hk).
  - exfalso. exact (Hs k u Hk He).
Qed.

(** X2: a new e-mail creates one row at the generated id, leaves every
    other row alone, and the cookie carries the new id. *)
Theorem oauth_new_user (env : Env) (now : Z) (code freshId e : string) (l : Ledger) :
  google_identify code = Ok e ->
  (forall k u, l !! k = Some u -> email u <> e) -> l !! freshId = None ->
  oauth_callback env now code freshId l
  = (RRedirectToGpt, <[freshId := new_user freshId e now]> l,
     Some (sign_cookie (JWT_SECRET env) (jwt_sign (JWT_SECRET env) [("userId", JStr freshId)]))).
Proof.
  intros Hg Hno Hf. unfold oauth_callback; unfold_monad. rewrite Hg. cbn.
  rewrite (find_by_email_none l e Hno). unfold create_user. rewrite Hf.
  rewrite bool_decide_false by (intros [? ?]; discriminate).
  rewrite (find_by_email_none l e Hno). reflexivity.
Qed.

(** X3: the callback fails with 500 JSON, no ledger change and no cookie
    when Google's token or userinfo call fails, and when a new e-mail's
    generated id is already taken. *)
Theorem oauth_failures (env : Env) (now : Z) (code freshId : string) (l : Ledger) :
  (forall err, google_identify code = Throw err ->
     oauth_callback env now code freshId l = (ROAuthFailed, l, None)) /\
  (forall e, google_identify code = Ok e ->
     (forall k u, l !! k = Some u -> email u <> e) -> is_Some (l !! freshId) ->
     oauth_callback env now code freshId l = (ROAuthFailed, l, None)).
Proof.
  unfold oauth_callback; unfold_monad. split.
  - intros err Hg. by rewrite Hg.
  - intros e Hg Hno Hf. rewrite Hg. cbn. rewrite (find_by_email_none l e Hno).
    unfold create_user. by rewrite bool_decide_true.
Qed.

(** X4: the session never expires on the server: whatever cookie a
    successful callback issues passes the middleware at every later time
    and injects the id of a row of the resulting ledger. *)
Theorem session_roundtrip (env : Env) (now : Z) (code freshId : string) (l l' : Ledger)
    (r : Response) (ck : SignedCookie) :
  keyed_by_id l ->
  oauth_callback env now code freshId l = (r, l', Some ck) ->
  forall t, exists k, auth_middleware env t (Some ck) = MwNext (Some (JStr k)) /\
                      is_Some (l' !! k).
Proof.
  intros Hkey Hcb t. unfold oauth_callback in Hcb; unfold_monad.
  destruct (google_identify code) as [e|err]; cbn in Hcb; [|discriminate].
  pose proof (find_by_email_spec l e) as Hs.
  destruct (find_by_email l e) as [u|].
  - cbn in Hcb. injection Hcb as <- <- <-.
    destruct Hs as (k & Hk & _). exists k.
    rewrite (Hkey k u Hk). split; [apply session_cookie_passes|eauto].
  - unfold create_user in Hcb.
    destruct (bool_decide (is_Some (l !! freshId))); cbn in Hcb; [discriminate|].
    destruct (find_by_email l e); cbn in Hcb; [discriminate|].
    injection Hcb as <- <- <-. exists freshId. split; [apply session_cookie_passes|].
    rewrite lookup_insert_eq. eauto.
Qed.

Lemma oauth_callback_ledger_fresh (env : Env) (now : Z) (code freshId : string) (l : Ledger) :
  (oauth_callback env now code freshId l).1.2 = l \/
  (l !! freshId = None /\
   exists e, (forall k u, l !! k = Some u -> email u <> e) /\
     (oauth_callback env now code freshId l).1.2 = <[freshId := new_user freshId e now]> l).
Proof.
  unfold oauth_callback; unfold_monad.
  destruct (google_identify code) as [e|]; cbn; auto.
  pose proof (find_by_email_spec l e) as Hs.
  destruct (find_by_email l e) eqn:Hf; cbn; auto.
  unfold create_user. destruct (bool_decide (is_Some (l !! freshId))) eqn:Hb; cbn; auto.
  rewrite Hf; cbn. right. split; [|eauto].
  apply bool_decide_eq_false in Hb. destruct (l !! freshId); [exfalso; eauto|done].
Qed.

Lemma increment_request_ledger_guarded (l : Ledger) (userId : CtxVal) (now : Z) :
  ledger_after (increment_request l userId now) l = l \/
  exists s u, l !! s = Some u /\ requestCount u + 1 <= INT4_MAX /\
    ledger_after (increment_request l userId now) l = <[s := record_allowed u now]> l.
Proof.
  unfold increment_request. destruct userId as [[s| | |]|]; simpl; auto.
  destruct (l !! s) as [u|] eqn:Hs; simpl; auto.
  destruct (Z.ltb_spec INT4_MAX (requestCount u + 1)); simpl; auto.
  right. exists s, u. auto.
Qed.

(** What an interleaved step can do to the ledger. *)
Lemma cstep_ledger_shape (env : Env) (w w' : World) :
  cstep env w w' ->
  ledger w' = ledger w \/
  (exists s u v t, ledger w !! s = Some u /\
     ledger w' = <[s := set_paidUntil u v t]> (ledger w)) \/
  (exists s u t, ledger w !! s = Some u /\ requestCount u + 1 <= INT4_MAX /\
     ledger w' = <[s := record_allowed u t]> (ledger w)) \/
  (exists fid e, ledger w !! fid = None /\
     (forall k u, ledger w !! k = Some u -> email u <> e) /\
     ledger w' = <[fid := new_user fid e (clock w)]> (ledger w)).
Proof.
  intros Hst. destruct Hst; simpl; unfold webhook_phase2, protected_phase2; auto.
  - destruct (oauth_callback_ledger_fresh env (clock w) code freshId (ledger w))
      as [E|(Hf & e & Hno & E)]; [auto|]. right; right; right. eauto.
  - destruct (update_paidUntil_ledger (ledger w) userId endOfDay (clock w))
      as [E|(s & u & Hs & E)]; [auto|]. right; left. eauto 6.
  - destruct (increment_request_ledger_guarded (ledger w) uid t) as [E|(s & u & Hs & Hb & E)];
      [auto|]. right; right; left. exists s, u, t. auto.
Qed.

Lemma keyed_insert_same (l : Ledger) (s : string) (u u' : User) :
  keyed_by_id l -> l !! s = Some u -> id u' = id u -> keyed_by_id (<[s := u']> l).
Proof.
  intros Hk Hs Hid k v Hv. rewrite lookup_insert in Hv.
  destruct (decide (s = k)) as [<-|]; [injection Hv as <-; rewrite Hid; eauto|eauto].
Qed.

Lemma emails_insert_same (l : Ledger) (s : string) (u u' : User) :
  emails_unique l -> l !! s = Some u -> email u' = email u ->
  emails_unique (<[s := u']> l).
Proof.
  intros Hu Hs He k1 k2 u1 u2 H1 H2 H12. rewrite lookup_insert in H1, H2.
  destruct (decide (s = k1)) as [<-|N1], (decide (s = k2)) as [<-|N2]; try done.
  - injection H1 as <-. apply (Hu s k2 u u2 Hs H2). congruence.
  - injection H2 as <-. apply (Hu k1 s u1 u H1 Hs). congruence.
  - exact (Hu k1 k2 u1 u2 H1 H2 H12).
Qed.

Lemma emails_insert_fresh (l : Ledger) (fid : string) (v : User) :
  emails_unique l -> (forall k u, l !! k = Some u -> email u <> email v) ->
  emails_unique (<[fid := v]> l).
Proof.
  intros Hu Hno k1 k2 u1 u2 H1 H2 H12. rewrite lookup_insert in H1, H2.
  destruct (decide (fid = k1)) as [<-|N1], (decide (fid = k2)) as [<-|N2]; try done.
  - injection H1 as <-. exfalso. exact (Hno k2 u2 H2 (eq_sym H12)).
  - injection H2 as <-. exfalso. exact (Hno k1 u1 H1 H12).
  - exact (Hu k1 k2 u1 u2 H1 H2 H12).
Qed.

(** X5: at every point of every interleaving, rows stay stored under
    their own id and no two rows share an e-mail, once this holds at the
    start. *)
Theorem keys_and_emails_invariant (env : Env) (w w' : World) :
  rtc (cstep env) w w' ->
  keyed_by_id (ledger w) -> emails_unique (ledger w) ->
  keyed_by_id (ledger w') /\ emails_unique (ledger w').
Proof.
  intros Hr. induction Hr as [w|w1 w2 w3 H12 H23 IH]; [auto|].
  intros Hk He.
  enough (keyed_by_id (ledger w2) /\ emails_unique (ledger w2)) as [? ?] by (apply IH; auto).
  destruct (cstep_ledger_shape env w1 w2 H12)
    as [E|[(s & u & v & t0 & Hs & E)|[(s & u & t & Hs & _ & E)|(fid & e & Hf & Hno & E)]]];
    rewrite E.
  - auto.
  - split; [apply (keyed_insert_same _ s u); auto|apply (emails_insert_same _ s u); auto].
  - split; [apply (keyed_insert_same _ s u); auto|apply (emails_insert_same _ s u); auto].
  - split.
    + intros k x Hx. rewrite lookup_insert in Hx.
      destruct (decide (fid = k)) as [<-|]; [injection Hx as <-; done|eauto].
    + apply emails_insert_fresh; [done|]. simpl. exact Hno.
Qed.

(** X6: at every point of every interleaving, every [requestCount] stays
    within [0, INT4_MAX], once this holds at the start. *)
Theorem counts_in_range_invariant (env : Env) (w w' : World) :
  rtc (cstep env) w w' -> counts_in_range (ledger w) -> counts_in_range (ledger w').
Proof.
  intros Hr. induction Hr as [w|w1 w2 w3 H12 H23 IH]; [auto|].
  intros Hc. apply IH.
  destruct (cstep_ledger_shape env w1 w2 H12)
    as [E|[(s & u & v & t0 & Hs & E)|[(s & u & t & Hs & Hb & E)|(fid & e & Hf & Hno & E)]]];
    rewrite E; [done| | |]; intros k x Hx; rewrite lookup_insert in Hx;
    (destruct (decide _) as [<-|]; [injection Hx as <-|eauto]).
  - exact (Hc s u Hs).
  - simpl. pose proof (Hc s u Hs). lia.
  - simpl. unfold INT4_MAX. lia.
Qed.

(** X7: an authenticated user id with no row is answered 404 and the
    ledger is unchanged. *)
Theorem protected_user_not_found (env : Env) (now : Z) (ck : option SignedCookie)
    (s : string) (l : Ledger) :
  auth_middleware env now ck = MwNext (Some (JStr s)) -> l !! s = None ->
  serve_protected env now ck l = (RUserNotFound, l).
Proof.
  intros Hm Hs. unfold serve_protected. rewrite Hm.
  unfold protected, protected_phase1, findUnique_id; unfold_monad; cbn. by rewrite Hs.
Qed.

(** X8: a [/protected] request changes the ledger only when it is
    answered 'You are authenticated', and then only by recording one
    allowed request (count + 1, [lastLogin] = now) on the row of the
    authenticated id, which was decided ALLOW. *)
Theorem serve_protected_effect (env : Env) (now : Z) (ck : option SignedCookie) (l : Ledger) :
  (serve_protected env now ck l).2 = l \/
  ((serve_protected env now ck l).1 = RAuthenticated /\
   exists s u, auth_middleware env now ck = MwNext (Some (JStr s)) /\ l !! s = Some u /\
     decide_access u now = ALLOW /\
     (serve_protected env now ck l).2 = <[s := record_allowed u now]> l).
Proof.
  unfold serve_protected. destruct (auth_middleware env now ck) as [r|userId] eqn:Hm;
    [left; done|].
  unfold protected, protected_phase1, protected_phase2, increment_request, findUnique_id;
    unfold_monad.
  destruct userId as [[s| | |]|]; cbn; auto.
  destruct (l !! s) as [u|] eqn:Hs; cbn; auto.
  destruct (decide_access u now) eqn:Hd; cbn.
  - rewrite Hs. destruct (INT4_MAX <? requestCount u + 1); cbn; [left; done|].
    right. split; [done|]. exists s, u. auto.
  - destruct stripe_create_checkout_session; cbn; auto.
Qed.

(** X9: a webhook request never adds or removes a row and never changes
    a row's id, e-mail, [createdAt] or [requestCount]; a row it does
    change gets [paidUntil = now + 1 day] and [lastLogin = now] (the
    [@updatedAt] rewrite). *)
Theorem webhook_frame (env : Env) (now : Z) (rawBody : string)
    (sig : option string) (l : Ledger) (k : string) :
  match l !! k, (serve_webhook env now rawBody sig l).2 !! k with
  | Some u, Some u' =>
      id u' = id u /\ email u' = email u /\ createdAt u' = createdAt u /\
      requestCount u' = requestCount u /\
      (u' = u \/ (lastLogin u' = now /\ paidUntil u' = Some (now + msPerDay)))
  | None, None => True
  | _, _ => False
  end.
Proof.
  destruct (serve_webhook_ledger env now rawBody sig l) as [E|(s & u0 & Hs & E)]; rewrite E.
  - destruct (l !! k); auto 7.
  - rewrite lookup_insert. destruct (decide (s = k)) as [<-|Hne].
    + rewrite Hs. cbn. rewrite next_day_same_time_eq. auto 8.
    + destruct (l !! k); auto 7.
Qed.

(** X10: replaying a webhook at the same instant changes nothing more:
    handling it twice gives the answer and the ledger of handling it once. *)
Theorem webhook_replay_same_time (env : Env) (now : Z) (rawBody : string)
    (sig : option string) (l : Ledger) :
  serve_webhook env now rawBody sig (serve_webhook env now rawBody sig l).2
  = serve_webhook env now rawBody sig l.
Proof.
  unfold serve_webhook, webhook.
  destruct (webhook_phase1 env now rawBody sig) as [r|userId endOfDay]; cbn; [done|].
  unfold webhook_phase2, update_paidUntil; unfold_monad.
  destruct userId as [s|]; cbn; [|done].
  destruct (l !! s) as [u|] eqn:Hs; cbn; [|by rewrite Hs].
  rewrite lookup_insert_eq. cbn. by rewrite insert_insert_eq.
Qed.

Lemma protected_pay (now : Z) (s : string) (u : User) (l : Ledger) (url : option string) :
  l !! s = Some u -> decide_access u now = REQUIRE_PAYMENT ->
  stripe_create_checkout_session (Some (JStr s)) = Ok url ->
  dispatch (protected now (Some (JStr s)) l) l = (RPaymentRequired url, l).
Proof.
  intros Hs Hd Hu. unfold protected, protected_phase1, findUnique_id; unfold_monad; cbn.
  rewrite Hs, Hd; cbn. by rewrite Hu.
Qed.

(** X11: [n] requests in a row, at one instant, for a user with count
    [c >= 0] and no active payment: the first [min n (4 - c)] are
    answered 'You are authenticated', the rest 'Payment required' with
    the checkout URL, and the count ends [min n (4 - c)] higher. *)
Theorem protected_n_quota (n : nat) (now : Z) (s : string) (u : User) (l : Ledger)
    (url : option string) :
  l !! s = Some u -> 0 <= requestCount u -> ~ paid_active u now ->
  stripe_create_checkout_session (Some (JStr s)) = Ok url ->
  let a := Nat.min n (Z.to_nat (FREE_QUOTA - requestCount u)) in
  (protected_n n now (Some (JStr s)) l).1
    = replicate a RAuthenticated ++ replicate (n - a) (RPaymentRequired url) /\
  exists u', (protected_n n now (Some (JStr s)) l).2 = <[s := u']> l /\
    requestCount u' = requestCount u + Z.of_nat a /\ paidUntil u' = paidUntil u.
Proof.
  intros Hs Hc Hp Hurl. cbv zeta. revert u l Hs Hc Hp.
  induction n as [|n IH]; intros u l Hs Hc Hp.
  - split; [done|]. exists u. rewrite insert_id by done. split; [done|]. split; [lia|done].
  - unfold FREE_QUOTA in *. simpl protected_n.
    destruct (Z.ltb_spec (requestCount u) 4) as [Hq|Hq].
    + assert (Hd : decide_access u now = ALLOW).
      { apply (proj1 (decide_access_cases u now)). left. unfold FREE_QUOTA. lia. }
      rewrite (protected_allow now s u l Hs Hd).
      destruct (Z.ltb_spec INT4_MAX (requestCount u + 1)) as [Hb|_];
        [unfold INT4_MAX in Hb; lia|]. cbn [fst snd].
      destruct (IH (record_allowed u now) (<[s := record_allowed u now]> l))
        as [Hrs (u' & Hl & Hcnt & Hpu)].
      * apply lookup_insert_eq.
      * simpl. lia.
      * exact Hp.
      * assert (Ha : Z.to_nat (4 - requestCount u)
                     = S (Z.to_nat (4 - requestCount (record_allowed u now)))).
        { simpl. lia. }
        rewrite Ha. simpl Nat.min. cbn [replicate app Nat.sub]. split; [by rewrite Hrs|].
        exists u'. rewrite Hl, insert_insert_eq. split; [done|]. split; [|done].
        rewrite Hcnt. simpl. lia.
    + assert (Hd : decide_access u now = REQUIRE_PAYMENT).
      { apply (proj2 (decide_access_cases u now)). unfold FREE_QUOTA. intros [?|?]; [lia|tauto]. }
      rewrite (protected_pay now s u l url Hs Hd Hurl). cbn [fst snd].
      destruct (IH u l Hs Hc Hp) as [Hrs Hrest].
      assert (Ha : Z.to_nat (4 - requestCount u) = 0%nat) by lia.
      rewrite Ha in Hrs, Hrest |- *. rewrite !Nat.min_0_r in Hrs, Hrest |- *.
      rewrite Nat.sub_0_r in Hrs. cbn [replicate app Nat.sub] in Hrs |- *.
      split; [by rewrite Hrs|exact Hrest].
Qed.


End Extras.

(** ** Sample runs *)

#[local] Existing Instance sample_boundary.

Lemma sample_world_initial : initial sample_world.
Proof.
  split; [done|]. intros uid u Hu. simpl in Hu. unfold alice_ledger in Hu.
  apply lookup_singleton_Some in Hu as [_ <-]. reflexivity.
Qed.

(** C1 needs no witness.  C2 witness: a fresh user, decided ALLOW. *)
Lemma protected_request_effect_witness :
  alice_ledger !! "u1" = Some alice /\
  dispatch (protected 0 (Some (JStr "u1")) alice_ledger) alice_ledger
  = (RAuthenticated,
     <["u1" := mkUser "u1" "alice@example.com" 0 1 0 None]> alice_ledger).
Proof.
  split; [reflexivity|].
  apply (proj1 (protected_request_effect 0 "u1" alice alice_ledger eq_refl));
    vm_compute; reflexivity.
Defined.

(** C2 fails at the top of the INTEGER column: a paid user at
    [requestCount = INT4_MAX] is decided ALLOW, but the increment is
    rejected and the row keeps its count. *)
Lemma protected_increment_overflow :
  decide_access (mkUser "u1" "alice@example.com" 0 INT4_MAX 0 (Some 86400000)) 0 = ALLOW /\
  let l : Ledger := {["u1" := mkUser "u1" "alice@example.com" 0 INT4_MAX 0 (Some 86400000)]} in
  dispatch (protected 0 (Some (JStr "u1")) l) l = (RInternalServerError, l).
Proof. split; vm_compute; reflexivity. Qed.

(** C3 witness: [alice] pays at 0 ms, and the same webhook is replayed
    at 1000 ms: her [paidUntil], already set, moves forward by one second. *)
Lemma paid_until_monotone_sequential_witness :
  let w := with_clock (with_ledger sample_world
             (serve_webhook sample_env 0 "u1" (sample_sig "u1") alice_ledger).2) 1000 in
  sreachable sample_env w /\
  ledger w !! "u1" = Some (set_paidUntil alice 86400000 0) /\
  exists u', ledger (with_ledger w (serve_webhook sample_env 1000 "u1" (sample_sig "u1")
                                      (ledger w)).2) !! "u1" = Some u' /\
    paid_le (Some 86400000) (paidUntil u') /\ paidUntil u' = Some 86401000.
Proof.
  intros w.
  assert (Hr : sreachable sample_env w).
  { exists sample_world. split; [exact sample_world_initial|].
    eapply rtc_l; [exact (ss_webhook sample_env sample_world "u1" (sample_sig "u1"))|].
    eapply rtc_l; [apply (ss_tick sample_env _ 1000); simpl; lia|]. apply rtc_refl. }
  assert (Hu : ledger w !! "u1" = Some (set_paidUntil alice 86400000 0))
    by (vm_compute; reflexivity).
  split; [exact Hr|]. split; [exact Hu|].
  destruct (paid_until_monotone_sequential sample_env w _ "u1" _ Hr
              (ss_webhook sample_env w "u1" (sample_sig "u1")) Hu)
    as (u' & Hu' & Hle & Hc).
  exists u'. split; [exact Hu'|]. split; [exact Hle|].
  vm_compute in Hu'. injection Hu' as <-. reflexivity.
Defined.


(** C3 fails once two webhook handlers for the same user interleave: the
    first computes [endOfDay] at 0 ms, the clock moves to 1000 ms, the
    second computes its later [endOfDay] and writes first, then the first
    handler's write lands and moves [paidUntil] back by one second. *)
Lemma paid_until_regresses_interleaved :
  ~ (forall (w w' : World) (uid : string) (u : User),
       creachable sample_env w -> cstep sample_env w w' -> ledger w !! uid = Some u ->
       exists u', ledger w' !! uid = Some u' /\ paid_le (paidUntil u) (paidUntil u')).
Proof.
  intros Hall.
  pose (w0 := sample_world).
  pose (w1 := mkWorld (ledger w0) (clock w0) (inflight w0 ++ [IWebhook (Some "u1") 86400000])).
  pose (w2 := with_clock w1 1000).
  pose (w3 := mkWorld (ledger w2) (clock w2) (inflight w2 ++ [IWebhook (Some "u1") 86401000])).
  pose (w4 := mkWorld (ledger_after (webhook_phase2 (ledger w3) (Some "u1") 86401000 (clock w3))
                                   (ledger w3))
                      (clock w3) (delete 1%nat (inflight w3))).
  pose (w5 := mkWorld (ledger_after (webhook_phase2 (ledger w4) (Some "u1") 86400000 (clock w4))
                                   (ledger w4))
                      (clock w4) (delete 0%nat (inflight w4))).
  assert (H01 : cstep sample_env w0 w1).
  { apply (cs_webhook_begin sample_env w0 "u1" (sample_sig "u1")). vm_compute. reflexivity. }
  assert (H12 : cstep sample_env w1 w2) by (apply cs_tick; simpl; lia).
  assert (H23 : cstep sample_env w2 w3).
  { apply (cs_webhook_begin sample_env w2 "u1" (sample_sig "u1")). vm_compute. reflexivity. }
  assert (H34 : cstep sample_env w3 w4) by (apply cs_webhook_end; reflexivity).
  assert (H45 : cstep sample_env w4 w5) by (apply cs_webhook_end; reflexivity).
  assert (Hr : creachable sample_env w4).
  { exists w0. split; [exact sample_world_initial|].
    eapply rtc_l; [exact H01|]. eapply rtc_l; [exact H12|].
    eapply rtc_l; [exact H23|]. eapply rtc_l; [exact H34|]. apply rtc_refl. }
  destruct (Hall w4 w5 "u1" (set_paidUntil alice 86401000 1000) Hr H45) as (u' & Hu' & Hle).
  - vm_compute. reflexivity.
  - vm_compute in Hu'. injection Hu' as <-. simpl in Hle. lia.
Qed.

(** C4 witness: a verified completed checkout for an existing user. *)
Lemma webhook_verified_response_witness :
  constructEvent "u1" (sample_sig "u1") (STRIPE_WEBHOOK_SECRET sample_env) 0
    = Ok (mkEvent "checkout.session.completed" (Some "u1")) /\
  serve_webhook sample_env 0 "u1" (sample_sig "u1") alice_ledger
    = (RReceived, <["u1" := set_paidUntil alice 86400000 0]> alice_ledger).
Proof.
  split; [vm_compute; reflexivity|].
  rewrite (webhook_verified_response sample_env 0 "u1" (sample_sig "u1")
             (mkEvent "checkout.session.completed" (Some "u1")) alice_ledger);
    vm_compute; reflexivity.
Defined.

(** C4 fails for a verified completed checkout whose
    [client_reference_id] names no row: the update throws and the
    provider gets Hono's 500, not [{received: true}]. *)
Lemma webhook_missing_user_not_acknowledged :
  constructEvent "ghost" (sample_sig "ghost") (STRIPE_WEBHOOK_SECRET sample_env) 0
    = Ok (mkEvent "checkout.session.completed" (Some "ghost")) /\
  serve_webhook sample_env 0 "ghost" (sample_sig "ghost") alice_ledger
    = (RInternalServerError, alice_ledger).
Proof. split; vm_compute; reflexivity. Qed.

(** C5 witness: the payment of [alice] processed at 12:00 UTC. *)
Lemma webhook_sets_next_day_same_time_witness :
  constructEvent "u1" (sample_sig "u1") (STRIPE_WEBHOOK_SECRET sample_env) 43200000
    = Ok (mkEvent "checkout.session.completed" (Some "u1")) /\
  (serve_webhook sample_env 43200000 "u1" (sample_sig "u1") alice_ledger).2 !! "u1"
    = Some (mkUser "u1" "alice@example.com" 0 0 43200000 (Some (43200000 + msPerDay))).
Proof.
  split; [vm_compute; reflexivity|].
  apply (webhook_sets_next_day_same_time sample_env 43200000 "u1" (sample_sig "u1")
           (mkEvent "checkout.session.completed" (Some "u1")) alice_ledger "u1" alice);
    vm_compute; reflexivity.
Defined.

(** C5 fails at noon: the payment processed at 12:00 UTC on 1 January
    1970 is valid until 12:00 the next day, not until the midnight that
    opens it. *)
Lemma webhook_noon_not_start_of_next_day :
  (serve_webhook sample_env 43200000 "u1" (sample_sig "u1") alice_ledger).2 !! "u1"
    ≫= paidUntil = Some 129600000 /\
  start_of_next_day 43200000 = 86400000.
Proof. split; vm_compute; reflexivity. Qed.

(** C6 witness: the cookie the OAuth callback issues for [alice]. *)
Lemma auth_middleware_outcomes_witness :
  getSignedCookie "jwt-secret"
    (Some (sign_cookie "jwt-secret" (jwt_sign "jwt-secret" [("userId", JStr "u1")])))
    = Some (jwt_sign "jwt-secret" [("userId", JStr "u1")]) /\
  auth_middleware sample_env 0
    (Some (sign_cookie "jwt-secret" (jwt_sign "jwt-secret" [("userId", JStr "u1")])))
    = MwNext (Some (JStr "u1")).
Proof.
  split; [vm_compute; reflexivity|].
  rewrite (proj1 (proj2 (proj2 (auth_middleware_outcomes sample_env 0
           (Some (sign_cookie "jwt-secret" (jwt_sign "jwt-secret" [("userId", JStr "u1")]))))))
             (jwt_sign "jwt-secret" [("userId", JStr "u1")]) [("userId", JStr "u1")]);
    vm_compute; reflexivity.
Defined.

(** C6 fails for a payload without [userId]: a token signed with the
    session secret passes the middleware, [userId] is stored as
    [undefined], and the [/protected] handler runs (its [findUnique]
    throws, so the answer is Hono's 500, not 401 'Invalid token'). *)
Lemma auth_accepts_payload_without_userId :
  auth_middleware sample_env 0
    (Some (sign_cookie "jwt-secret" (jwt_sign "jwt-secret" []))) = MwNext None /\
  serve_protected sample_env 0
    (Some (sign_cookie "jwt-secret" (jwt_sign "jwt-secret" []))) alice_ledger
    = (RInternalServerError, alice_ledger).
Proof.
  split; [exact (signed_empty_payload_passes sample_env 0)|].
  vm_compute. reflexivity.
Qed.

(** C7 witness: a forged signature header. *)
Lemma webhook_rejects_unverified_witness :
  constructEvent "u1" (Some "forged") (STRIPE_WEBHOOK_SECRET sample_env) 0
    = Throw StripeSignatureVerificationError /\
  serve_webhook sample_env 0 "u1" (Some "forged") alice_ledger
    = (RWebhookSignatureFailed, alice_ledger).
Proof.
  assert (He : constructEvent "u1" (Some "forged") (STRIPE_WEBHOOK_SECRET sample_env) 0
                = Throw StripeSignatureVerificationError) by (vm_compute; reflexivity).
  split; [exact He|].
  apply (proj2 (webhook_rejects_unverified sample_env 0 "u1" (Some "forged") _ He)).
Defined.

(** C8 witness: [carol] at the quota, one second later. *)
Lemma quota_exhausted_forever_witness :
  rtc (cstep sample_env) carol_world (with_clock carol_world 1000) /\
  exists u', ledger (with_clock carol_world 1000) !! "u3" = Some u' /\
    FREE_QUOTA <= requestCount u' /\
    decide_access u' 1000 = REQUIRE_PAYMENT.
Proof.
  assert (Hr : rtc (cstep sample_env) carol_world (with_clock carol_world 1000)).
  { apply rtc_once. apply cs_tick. simpl. lia. }
  split; [exact Hr|].
  destruct (quota_exhausted_forever sample_env carol_world (with_clock carol_world 1000)
              "u3" carol Hr ltac:(vm_compute; reflexivity) ltac:(vm_compute; discriminate))
    as (u' & Hu' & Hq & Hp).
  exists u'. split; [exact Hu'|]. split; [exact Hq|].
  apply Hp. vm_compute in Hu'. injection Hu' as <-.
  intros (p & Hp' & _). discriminate.
Defined.

(** C9 witness: [alice], under the quota, and [bob], over the quota and
    paid, are both allowed and counted. *)
Lemma paid_request_counted_witness :
  (exists u', dispatch (protected 0 (Some (JStr "u1")) alice_ledger) alice_ledger
              = (RAuthenticated, <["u1" := u']> alice_ledger) /\
              requestCount u' = 1) /\
  (exists u', dispatch (protected 0 (Some (JStr "u2")) bob_ledger) bob_ledger
              = (RAuthenticated, <["u2" := u']> bob_ledger) /\
              requestCount u' = 11).
Proof.
  split.
  - apply (paid_request_counted 0 "u1" alice alice_ledger).
    + reflexivity.
    + left. vm_compute. reflexivity.
    + vm_compute. reflexivity.
  - apply (paid_request_counted 0 "u2" bob bob_ledger).
    + reflexivity.
    + right. exists 86400000. split; [reflexivity|lia].
    + vm_compute. reflexivity.
Defined.

(** C9 fails: [bob]'s request, allowed only by his payment, still
    raises his [requestCount] from 10 to 11. *)
Lemma paid_request_consumes_quota :
  decide_access bob 0 = ALLOW /\ FREE_QUOTA <= requestCount bob /\
  (dispatch (protected 0 (Some (JStr "u2")) bob_ledger) bob_ledger).2 !! "u2"
    ≫= (fun u => Some (requestCount u)) = Some 11.
Proof. split; [|split]; vm_compute; first [reflexivity | discriminate]. Qed.

(** [alice_ledger] satisfies the ledger invariants. *)
Lemma alice_ledger_keyed : keyed_by_id alice_ledger.
Proof.
  intros k u Hu. unfold alice_ledger in Hu.
  apply lookup_singleton_Some in Hu as [<- <-]. reflexivity.
Qed.

Lemma alice_ledger_emails_unique : emails_unique alice_ledger.
Proof.
  intros k1 k2 u1 u2 H1 H2 _. unfold alice_ledger in H1, H2.
  apply lookup_singleton_Some in H1 as [<- _].
  apply lookup_singleton_Some in H2 as [<- _]. reflexivity.
Qed.

Lemma alice_ledger_counts_in_range : counts_in_range alice_ledger.
Proof.
  intros k u Hu. unfold alice_ledger in Hu.
  apply lookup_singleton_Some in Hu as [_ <-]. simpl. unfold INT4_MAX. lia.
Qed.

Lemma alice_ledger_no_email (e : string) :
  e <> "alice@example.com" -> forall k u, alice_ledger !! k = Some u -> email u <> e.
Proof.
  intros He k u Hu. unfold alice_ledger in Hu.
  apply lookup_singleton_Some in Hu as [_ <-]. simpl. congruence.
Qed.

(** X1 witness: [alice] signs in again and gets a session for ["u1"]. *)
Lemma oauth_returning_user_witness :
  oauth_callback sample_env 0 "alice@example.com" "u9" alice_ledger
  = (RRedirectToGpt, alice_ledger,
     Some (sign_cookie "jwt-secret" (jwt_sign "jwt-secret" [("userId", JStr "u1")]))).
Proof.
  apply (oauth_returning_user sample_env 0 "alice@example.com" "u9" "alice@example.com"
           "u1" alice alice_ledger alice_ledger_keyed alice_ledger_emails_unique);
    reflexivity.
Defined.

(** X2 witness: a first sign-in for a new e-mail creates row ["u2"]. *)
Lemma oauth_new_user_witness :
  oauth_callback sample_env 0 "bob@example.com" "u2" alice_ledger
  = (RRedirectToGpt, <["u2" := new_user "u2" "bob@example.com" 0]> alice_ledger,
     Some (sign_cookie "jwt-secret" (jwt_sign "jwt-secret" [("userId", JStr "u2")]))).
Proof.
  apply (oauth_new_user sample_env 0 "bob@example.com" "u2" "bob@example.com" alice_ledger).
  - reflexivity.
  - apply alice_ledger_no_email. discriminate.
  - reflexivity.
Defined.

(** X3 witness: a new e-mail whose generated id is taken fails. *)
Lemma oauth_failures_witness :
  oauth_callback sample_env 0 "bob@example.com" "u1" alice_ledger
  = (ROAuthFailed, alice_ledger, None).
Proof.
  apply (proj2 (oauth_failures sample_env 0 "bob@example.com" "u1" alice_ledger)
           "bob@example.com").
  - reflexivity.
  - apply alice_ledger_no_email. discriminate.
  - eexists. reflexivity.
Defined.

(** X4 witness: the new user's cookie still passes a year later. *)
Lemma session_roundtrip_witness :
  exists k,
    auth_middleware sample_env 31536000000
      (Some (sign_cookie "jwt-secret" (jwt_sign "jwt-secret" [("userId", JStr "u2")])))
    = MwNext (Some (JStr k)) /\
    is_Some ((<["u2" := new_user "u2" "bob@example.com" 0]> alice_ledger : Ledger) !! k).
Proof.
  apply (session_roundtrip sample_env 0 "bob@example.com" "u2" alice_ledger
           (<["u2" := new_user "u2" "bob@example.com" 0]> alice_ledger) RRedirectToGpt).
  - exact alice_ledger_keyed.
  - vm_compute. reflexivity.
Defined.

(** X5 witness: after a new user signs in, the invariants still hold. *)
Lemma keys_and_emails_invariant_witness :
  keyed_by_id (ledger (with_ledger sample_world
    (oauth_callback sample_env 0 "bob@example.com" "u2" alice_ledger).1.2)) /\
  emails_unique (ledger (with_ledger sample_world
    (oauth_callback sample_env 0 "bob@example.com" "u2" alice_ledger).1.2)).
Proof.
  apply (keys_and_emails_invariant sample_env sample_world).
  - apply rtc_once. exact (cs_oauth sample_env sample_world "bob@example.com" "u2").
  - exact alice_ledger_keyed.
  - exact alice_ledger_emails_unique.
Defined.

(** X6 witness: after a new user signs in, every count is in range. *)
Lemma counts_in_range_invariant_witness :
  counts_in_range (ledger (with_ledger sample_world
    (oauth_callback sample_env 0 "bob@example.com" "u2" alice_ledger).1.2)).
Proof.
  apply (counts_in_range_invariant sample_env sample_world).
  - apply rtc_once. exact (cs_oauth sample_env sample_world "bob@example.com" "u2").
  - exact alice_ledger_counts_in_range.
Defined.

(** X7 witness: a valid session for an id with no row. *)
Lemma protected_user_not_found_witness :
  serve_protected sample_env 0
    (Some (sign_cookie "jwt-secret" (jwt_sign "jwt-secret" [("userId", JStr "u9")])))
    alice_ledger
  = (RUserNotFound, alice_ledger).
Proof.
  apply (protected_user_not_found sample_env 0 _ "u9" alice_ledger).
  - vm_compute. reflexivity.
  - reflexivity.
Defined.

(** X11 witness: six requests from [alice]: four allowed, two asked to pay. *)
Lemma protected_n_quota_witness :
  (protected_n 6 0 (Some (JStr "u1")) alice_ledger).1
    = [RAuthenticated; RAuthenticated; RAuthenticated; RAuthenticated;
       RPaymentRequired (Some "https://checkout.stripe.com/c/pay/cs_test");
       RPaymentRequired (Some "https://checkout.stripe.com/c/pay/cs_test")] /\
  exists u', (protected_n 6 0 (Some (JStr "u1")) alice_ledger).2 = <["u1" := u']> alice_ledger /\
    requestCount u' = 4 /\ paidUntil u' = None.
Proof.
  apply (protected_n_quota 6 0 "u1" alice alice_ledger
           (Some "https://checkout.stripe.com/c/pay/cs_test")).
  - reflexivity.
  - simpl. lia.
  - intros (p & Hp & _). discriminate.
  - reflexivity.
Defined.

